(** * weather_monitor.cpp: a shallow embedding and its properties

    The program keeps, per named location, the latest temperature, humidity
    and pressure reading ([class WeatherMonitor]) and averages the
    temperatures of a [vector<WeatherMonitor>]
    ([calculate_average_temperature]).

    The C++ [double] is modelled as IEEE 754 binary64 with the Standard
    Library's executable specification of floating-point arithmetic
    ([SpecFloat]: round to nearest, ties to even; NaN carries no payload).
    Methods are state-passing functions on the object; [cout] is a list of
    the items inserted into it. *)

From Stdlib Require Import ZArith QArith Qpower List Ascii String Bool Lia.
From Stdlib Require Import Floats.SpecFloat.
Import ListNotations.

(** ** binary64 *)

Module Double.

Definition prec : Z := 53.
Definition emax : Z := 1024.

(** A C++ [double]. Every value the program handles is a well-formed
    binary64 number ([is_double]). *)
Definition double : Type := spec_float.

Definition is_double (x : double) : Prop := valid_binary prec emax x = true.

Definition pos_zero : double := S754_zero false.
Definition neg_zero : double := S754_zero true.
Definition nan : double := S754_nan.

(** [a + b] and [a / b] on doubles. *)
Definition add (a b : double) : double := SFadd prec emax a b.
Definition div (a b : double) : double := SFdiv prec emax a b.

(** The [==] of C++ on doubles: [-0.0 == 0.0], and NaN equals nothing. *)
Definition eqb (a b : double) : bool := SFeqb a b.

Definition is_nan (a : double) : bool :=
  match a with S754_nan => true | _ => false end.

Definition is_neg_zero (a : double) : bool :=
  match a with S754_zero true => true | _ => false end.

(** Conversion of an integer to [double] (the usual arithmetic conversion
    applied to [monitors.size()] in [total / monitors.size()]). Exact up
    to 2^53, rounded to nearest above. *)
Definition of_Z (n : Z) : double := binary_normalize prec emax n 0 false.
Definition of_size (n : nat) : double := of_Z (Z.of_nat n).

(** The decimal literal [num / 10^digits] of the source text. For the
    literals of this program both operands are exact doubles (below 2^53),
    so that the correctly rounded quotient is the double nearest to the
    decimal number, which is what the compiler puts there. *)
Definition literal (num : Z) (digits : nat) : double :=
  div (of_Z num) (of_Z (10 ^ Z.of_nat digits)).

Definition one : double := S754_finite false 4503599627370496 (-52).

(** The rational number a finite double stands for. *)
Definition value (x : double) : option Q :=
  match x with
  | S754_zero _ => Some 0%Q
  | S754_finite s m e => Some (inject_Z (cond_Zopp s (Zpos m)) * Qpower 2 e)%Q
  | S754_infinity _ | S754_nan => None
  end.

Definition has_value (x : double) (q : Q) : Prop :=
  match value x with
  | Some v => (v == q)%Q
  | None => False
  end.

End Double.

Import Double.

(** ** [cout] *)

(** What [operator<<] inserts into [cout]: a piece of text, a [double]
    (formatted by the stream; the formatting is not modelled) or [endl]. *)
Inductive item : Type :=
| Str (s : string)
| Dbl (d : double)
| Endl.

Definition ostream : Type := list item.

(** Code that writes to [cout]: the stream goes in and comes out. *)
Definition IO (A : Type) : Type := ostream -> A * ostream.

Definition ret {A : Type} (a : A) : IO A := fun out => (a, out).

Definition bind {A B : Type} (c : IO A) (k : A -> IO B) : IO B :=
  fun out => let (a, out') := c out in k a out'.

(** [cout << i1 << ... << in;] *)
Definition cout (items : list item) : IO unit :=
  fun out => (tt, out ++ items).

Declare Scope io_scope.
Delimit Scope io_scope with io.
Notation "x <- c ;; k" := (bind c (fun x => k))
  (at level 100, c at next level, right associativity) : io_scope.
Notation "c ;;; k" := (bind c (fun _ => k))
  (at level 100, right associativity) : io_scope.

(** ** [class WeatherMonitor] *)

Record WeatherMonitor : Type := mkWeatherMonitor {
  location : string;
  temperature : double;
  humidity : double;
  pressure : double
}.

(** Assignments to the members, [location = loc;] and the like. *)
Definition set_location (v : string) (self : WeatherMonitor) : WeatherMonitor :=
  mkWeatherMonitor v (temperature self) (humidity self) (pressure self).
Definition set_temperature (v : double) (self : WeatherMonitor) : WeatherMonitor :=
  mkWeatherMonitor (location self) v (humidity self) (pressure self).
Definition set_humidity (v : double) (self : WeatherMonitor) : WeatherMonitor :=
  mkWeatherMonitor (location self) (temperature self) v (pressure self).
Definition set_pressure (v : double) (self : WeatherMonitor) : WeatherMonitor :=
  mkWeatherMonitor (location self) (temperature self) (humidity self) v.

(** [WeatherMonitor(string loc)]. The members are default-initialised (the
    string empty, the doubles indeterminate: [uninit] stands for whatever
    they hold) and then assigned in the constructor's body. *)
Definition new_WeatherMonitor_from (uninit : double) (loc : string) : WeatherMonitor :=
  let self := mkWeatherMonitor EmptyString uninit uninit uninit in
  let self := set_location loc self in
  let self := set_temperature pos_zero self in
  let self := set_humidity pos_zero self in
  let self := set_pressure pos_zero self in
  self.

Definition new_WeatherMonitor (loc : string) : WeatherMonitor :=
  new_WeatherMonitor_from nan loc.

(** [void update_weather(double temp, double hum, double pres)] *)
Definition update_weather (temp hum pres : double) (self : WeatherMonitor)
  : IO WeatherMonitor :=
  (let self := set_temperature temp self in
   let self := set_humidity hum self in
   let self := set_pressure pres self in
   cout [Str "Weather updated for "; Str (location self);
         Str ": Temp="; Dbl (temperature self);
         Str "°C, Humidity="; Dbl (humidity self);
         Str "%, Pressure="; Dbl (pressure self);
         Str "hPa"; Endl] ;;;
   ret self)%io.

(** [void display_weather()] *)
Definition display_weather (self : WeatherMonitor) : IO WeatherMonitor :=
  (cout [Str "Current weather in "; Str (location self); Str ":"; Endl] ;;;
   cout [Str "Temperature: "; Dbl (temperature self); Str "°C"; Endl] ;;;
   cout [Str "Humidity: "; Dbl (humidity self); Str "%"; Endl] ;;;
   cout [Str "Pressure: "; Dbl (pressure self); Str " hPa"; Endl] ;;;
   ret self)%io.

(** [double get_temperature()]: not declared [const], so the object is
    threaded through like in the other methods. *)
Definition get_temperature (self : WeatherMonitor) : double * WeatherMonitor :=
  (temperature self, self).

(** ** [calculate_average_temperature] *)

(** [for (auto& monitor : monitors) total += monitor.get_temperature();]
    Each element is visited by reference, in order; the loop returns the
    accumulator together with the vector as the calls left it. *)
Fixpoint accumulate (monitors : list WeatherMonitor) (total : double)
  : double * list WeatherMonitor :=
  match monitors with
  | [] => (total, [])
  | monitor :: rest =>
      let (t, monitor') := get_temperature monitor in
      let (total', rest') := accumulate rest (add total t) in
      (total', monitor' :: rest')
  end.

(** [double calculate_average_temperature(vector<WeatherMonitor>& monitors)]:
    the value returned and the vector behind the reference afterwards. *)
Definition calculate_average_temperature (monitors : list WeatherMonitor)
  : double * list WeatherMonitor :=
  let total := pos_zero in
  let (total, monitors) := accumulate monitors total in
  (div total (of_size (List.length monitors)), monitors).

(** ** [main] *)

Definition main : IO Z :=
  (let monitor1 := new_WeatherMonitor "New York" in
   let monitor2 := new_WeatherMonitor "London" in
   monitor1 <- update_weather (literal 255 1) (literal 600 1) (literal 10132 1) monitor1 ;;
   monitor2 <- update_weather (literal 180 1) (literal 750 1) (literal 10085 1) monitor2 ;;
   monitor1 <- display_weather monitor1 ;;
   monitor2 <- display_weather monitor2 ;;
   let monitors := [monitor1; monitor2] in
   let (avg_temp, monitors) := calculate_average_temperature monitors in
   cout [Str "Average temperature across locations: "; Dbl avg_temp;
         Str "°C"; Endl] ;;;
   ret 0%Z)%io.

(** ** The mean, as the specification words it *)

(** The sum of a sequence of doubles, taken in sequence order. *)
Definition float_sum (ts : list double) : double := fold_left add ts pos_zero.

(** "The sum of the stations' temperatures divided by the number of
    stations", in [double] arithmetic. *)
Definition arithmetic_mean (ts : list double) : double :=
  div (float_sum ts) (of_size (List.length ts)).

(** The values [temperature()] returns for the stations of a collection. *)
Definition temperatures (monitors : list WeatherMonitor) : list double :=
  map (fun monitor => fst (get_temperature monitor)) monitors.

(** ** Sequences of method calls on one station *)

Inductive call : Type :=
| Update (temp hum pres : double)
| Display
| GetTemperature.

Definition invoke (c : call) (self : WeatherMonitor) : IO WeatherMonitor :=
  match c with
  | Update temp hum pres => update_weather temp hum pres self
  | Display => display_weather self
  | GetTemperature => ret (snd (get_temperature self))
  end.

Fixpoint invoke_all (cs : list call) (self : WeatherMonitor) : IO WeatherMonitor :=
  match cs with
  | [] => ret self
  | c :: cs' => (self' <- invoke c self ;; invoke_all cs' self')%io
  end.

(** ** The stations of the driver, and a few more *)

Definition new_york : WeatherMonitor :=
  mkWeatherMonitor "New York" (literal 255 1) (literal 600 1) (literal 10132 1).

Definition london : WeatherMonitor :=
  mkWeatherMonitor "London" (literal 180 1) (literal 750 1) (literal 10085 1).

(** Stations at the same temperature as [new_york] and [london], all else
    different. *)
Definition boston : WeatherMonitor :=
  mkWeatherMonitor "Boston" (literal 255 1) (literal 410 1) (literal 10210 1).

Definition reykjavik : WeatherMonitor :=
  mkWeatherMonitor "Reykjavik" (literal 180 1) (literal 880 1) (literal 9900 1).

(** A station whose thermometer reads [-0.0]. *)
Definition vostok : WeatherMonitor :=
  mkWeatherMonitor "Vostok" neg_zero (literal 100 1) (literal 6240 1).

(** A station updated with a NaN temperature. *)
Definition broken : WeatherMonitor :=
  mkWeatherMonitor "Broken" nan pos_zero pos_zero.

(** ** What a sequence of calls amounts to *)

(** The readings passed to the last [update_weather] of a sequence of
    calls, if there is one. *)
Fixpoint last_update (cs : list call) : option (double * double * double) :=
  match cs with
  | [] => None
  | c :: cs' =>
      match last_update cs', c with
      | Some r, _ => Some r
      | None, Update temp hum pres => Some (temp, hum, pres)
      | None, _ => None
      end
  end.

(** How many [update_weather] and [display_weather] calls a sequence has. *)
Fixpoint updates (cs : list call) : nat :=
  match cs with
  | [] => 0
  | Update _ _ _ :: cs' => S (updates cs')
  | _ :: cs' => updates cs'
  end.

Fixpoint displays (cs : list call) : nat :=
  match cs with
  | [] => 0
  | Display :: cs' => S (displays cs')
  | _ :: cs' => displays cs'
  end.

(** The line breaks (LF characters) in a string. *)
Fixpoint newlines_in (s : string) : nat :=
  match s with
  | EmptyString => 0
  | String c s' =>
      ((if Ascii.eqb c "010"%char then 1 else 0) + newlines_in s')%nat
  end.

(** The number of lines of the text in a stream, that is, of its line
    breaks: those inside the strings inserted, which go out verbatim, and
    one per [endl]. A formatted [double] contains none. *)
Fixpoint lines (out : ostream) : nat :=
  match out with
  | [] => 0
  | Str s :: out' => (newlines_in s + lines out')%nat
  | Dbl _ :: out' => lines out'
  | Endl :: out' => S (lines out')
  end.

(** ** More about doubles *)

Definition two : double := S754_finite false 4503599627370496 (-51).

(** [|x| < 2^1023] for a finite [x]: then [x + x] does not overflow. *)
Definition doubling_fits (x : double) : bool :=
  match x with
  | S754_finite _ _ e => (e <? emax - prec)%Z
  | _ => true
  end.




(** ** The arithmetic mean, in exact arithmetic *)








(** * Properties *)

(** ** Division of a double by 1.0 is exact *)

Module DoubleFacts.

Local Open Scope Z_scope.

Lemma div_eucl_pair (a b : Z) : Z.div_eucl a b = (a / b, a mod b).
Proof. unfold Z.div, Z.modulo. destruct (Z.div_eucl a b); reflexivity. Qed.

Lemma fexp_eq (k : Z) : fexp prec emax k = Z.max (k - 53) (-1074).
Proof. reflexivity. Qed.

Lemma bounded_inv (m : positive) (e : Z) :
  bounded prec emax m e = true ->
  Z.max (Zpos (digits2_pos m) + e - 53) (-1074) = e /\ e <= 971.
Proof.
  unfold bounded, canonical_mantissa. intros Hb.
  apply andb_prop in Hb. destruct Hb as [Hc He].
  apply Z.eqb_eq in Hc. apply Z.leb_le in He.
  rewrite fexp_eq in Hc. split; assumption.
Qed.

(** The quotient of a normal number by 1.0, before rounding: the mantissa
    with one more bit, and no remainder. *)
Lemma div_core_normal (m : positive) (e : Z) :
  Zpos (digits2_pos m) = 53 -> -1074 < e ->
  SFdiv_core_binary prec emax (Zpos m) e 4503599627370496 (-52)
  = (Zpos m~0, e - 1, loc_Exact).
Proof.
  intros Hd He. unfold SFdiv_core_binary.
  change (Zdigits2 (Zpos m)) with (Zpos (digits2_pos m)). rewrite Hd.
  change (Zdigits2 4503599627370496) with 53.
  rewrite fexp_eq.
  replace (Z.min (Z.max (53 + e - (53 + -52) - 53) (-1074)) (e - -52))
    with (e - 1) by lia.
  replace (e - -52 - (e - 1)) with 53 by lia.
  cbv beta iota zeta.
  rewrite div_eucl_pair, Z.shiftl_mul_pow2 by lia.
  change (2 ^ 53) with (2 * 4503599627370496).
  rewrite Z.mul_assoc, Z_div_mult, Z_mod_mult by lia.
  replace (Zpos m * 2) with (Zpos m~0) by lia.
  reflexivity.
Qed.

(** The same for a subnormal number (exponent -1074). *)
Lemma div_core_subnormal (m : positive) :
  Zpos (digits2_pos m) <= 53 ->
  SFdiv_core_binary prec emax (Zpos m) (-1074) 4503599627370496 (-52)
  = (Zpos m, -1074, loc_Exact).
Proof.
  intros Hd. unfold SFdiv_core_binary.
  change (Zdigits2 (Zpos m)) with (Zpos (digits2_pos m)).
  change (Zdigits2 4503599627370496) with 53.
  rewrite fexp_eq.
  replace (Z.min (Z.max (Zpos (digits2_pos m) + -1074 - (53 + -52) - 53) (-1074))
                 (-1074 - -52))
    with (-1074) by lia.
  change (-1074 - -52 - -1074) with 52.
  cbv beta iota zeta.
  rewrite div_eucl_pair, Z.shiftl_mul_pow2 by lia.
  change (2 ^ 52) with 4503599627370496.
  rewrite Z_div_mult, Z_mod_mult by lia.
  reflexivity.
Qed.

(** Rounding an exact mantissa that is already canonical changes nothing. *)
Lemma round_canonical (s : bool) (m : positive) (e : Z) :
  bounded prec emax m e = true ->
  binary_round_aux prec emax s (Zpos m) e loc_Exact = S754_finite s m e.
Proof.
  intros Hb. unfold bounded, canonical_mantissa in Hb.
  apply andb_prop in Hb. destruct Hb as [Hc He].
  apply Z.eqb_eq in Hc.
  unfold binary_round_aux, shr_fexp.
  change (Zdigits2 (Zpos m)) with (Zpos (digits2_pos m)).
  rewrite Hc, Z.sub_diag.
  cbn [shr shr_record_of_loc shr_m loc_of_shr_record round_nearest_even].
  change (Zdigits2 (Zpos m)) with (Zpos (digits2_pos m)).
  rewrite Hc, Z.sub_diag. cbn [shr shr_record_of_loc shr_m].
  rewrite He. reflexivity.
Qed.

(** Rounding a canonical mantissa with one more low zero bit shifts that
    bit out, exactly. *)
Lemma round_doubled (s : bool) (m : positive) (e : Z) :
  -1074 < e ->
  bounded prec emax m e = true ->
  binary_round_aux prec emax s (Zpos m~0) (e - 1) loc_Exact = S754_finite s m e.
Proof.
  intros Hlo Hb. destruct (bounded_inv _ _ Hb) as [Hmax _].
  unfold bounded, canonical_mantissa in Hb.
  apply andb_prop in Hb. destruct Hb as [Hc He].
  apply Z.eqb_eq in Hc.
  assert (Hd : Zpos (digits2_pos m) = 53) by lia.
  unfold binary_round_aux, shr_fexp.
  change (Zdigits2 (Zpos m~0)) with (Zpos (Pos.succ (digits2_pos m))).
  rewrite Pos2Z.inj_succ, Hd, fexp_eq.
  replace (Z.max (Z.succ 53 + (e - 1) - 53) (-1074) - (e - 1)) with 1 by lia.
  cbn [shr shr_record_of_loc iter_pos shr_1 orb shr_m loc_of_shr_record
       round_nearest_even].
  replace (e - 1 + 1) with e by lia.
  change (Zdigits2 (Zpos m)) with (Zpos (digits2_pos m)).
  rewrite Hc, Z.sub_diag. cbn [shr shr_m].
  rewrite He. reflexivity.
Qed.

Lemma div_one_finite (s : bool) (m : positive) (e : Z) :
  bounded prec emax m e = true ->
  div (S754_finite s m e) one = S754_finite s m e.
Proof.
  intros Hb. destruct (bounded_inv _ _ Hb) as [Hmax Hhi].
  unfold div, one, SFdiv. rewrite xorb_false_r.
  destruct (Z.eq_dec e (-1074)) as [->|Hne].
  - rewrite div_core_subnormal by lia. apply round_canonical; assumption.
  - rewrite div_core_normal by lia. apply round_doubled; [lia|assumption].
Qed.

(** [x / 1.0] is [x], for every double. *)
Lemma div_one (x : double) : is_double x -> div x one = x.
Proof.
  destruct x as [s|s| |s m e]; intros Hx.
  - destruct s; reflexivity.
  - destruct s; reflexivity.
  - reflexivity.
  - apply div_one_finite. exact Hx.
Qed.

(** [0.0 + x] is [x], except that [0.0 + -0.0] is [0.0]. *)
Lemma add_pos_zero (x : double) :
  add pos_zero x = if is_neg_zero x then pos_zero else x.
Proof. destruct x as [[|]|[|]| |s m e]; reflexivity. Qed.

(** [x == x] holds for every double but NaN. *)
Lemma eqb_self (x : double) : eqb x x = negb (is_nan x).
Proof.
  destruct x as [s|[|]| |[|] m e]; try reflexivity;
    unfold eqb, SFeqb, SFcompare;
    rewrite Z.compare_refl, Pos.compare_cont_refl; reflexivity.
Qed.

Lemma is_neg_zero_inv (x : double) : is_neg_zero x = true -> x = neg_zero.
Proof. destruct x as [[|]|s| |s m e]; intros H; try discriminate H. reflexivity. Qed.

Lemma of_size_1 : of_size 1 = one.
Proof. reflexivity. Qed.

Lemma of_size_0 : of_size 0 = pos_zero.
Proof. reflexivity. Qed.

(** The doubles behind the literals of [main]: 25.5, 18.0, 60.0 and 75.0
    are exact, 1013.2 is [0x1.fa9999999999ap+9] and 1008.5 is exact. *)
Lemma literals_of_main :
  literal 255 1 = S754_finite false 7177611906121728 (-48)
  /\ literal 180 1 = S754_finite false 5066549580791808 (-48)
  /\ literal 600 1 = S754_finite false 8444249301319680 (-47)
  /\ literal 750 1 = S754_finite false 5277655813324800 (-46)
  /\ literal 10132 1 = S754_finite false 8912201450101146 (-43)
  /\ literal 10085 1 = S754_finite false 8870859812896768 (-43)
  /\ literal 2175 2 = S754_finite false 6122080743456768 (-48).
Proof. repeat split; vm_compute; reflexivity. Qed.

End DoubleFacts.

(** ** The station *)

(** [display_weather] only reads the station. *)
Lemma display_weather_self (self : WeatherMonitor) (out : ostream) :
  fst (display_weather self out) = self.
Proof. reflexivity. Qed.

Lemma invoke_location (c : call) (self : WeatherMonitor) (out : ostream) :
  location (fst (invoke c self out)) = location self.
Proof. destruct c; reflexivity. Qed.

Lemma invoke_all_location (cs : list call) :
  forall (self : WeatherMonitor) (out : ostream),
    location (fst (invoke_all cs self out)) = location self.
Proof.
  induction cs as [|c cs IH]; intros self out.
  - reflexivity.
  - cbn [invoke_all]. unfold bind.
    pose proof (invoke_location c self out) as Hc.
    destruct (invoke c self out) as [self' out']. cbn [fst] in Hc.
    rewrite IH. exact Hc.
Qed.

(** C3: right after [update_weather t h p], [get_temperature] returns [t]
    itself, whatever the station and the stream were. *)
Theorem get_temperature_after_update
  (self : WeatherMonitor) (t h p : double) (out : ostream) :
  fst (get_temperature (fst (update_weather t h p self out))) = t.
Proof. reflexivity. Qed.

(** C4: a station constructed for any location holds 0.0 in temperature,
    humidity and pressure, whatever the members held before the
    constructor ran, and [get_temperature] returns 0.0 on it. *)
Theorem constructed_station_reads_zero (uninit : double) (loc : string) :
  temperature (new_WeatherMonitor_from uninit loc) = pos_zero
  /\ humidity (new_WeatherMonitor_from uninit loc) = pos_zero
  /\ pressure (new_WeatherMonitor_from uninit loc) = pos_zero
  /\ fst (get_temperature (new_WeatherMonitor_from uninit loc)) = pos_zero.
Proof. repeat split. Qed.

(** C7: [update_weather t h p] returns for every station and all [t], [h],
    [p] (nothing is checked or rejected); afterwards the three readings are
    [t], [h], [p] and the location is the one the station had. *)
Theorem update_weather_overwrites_readings
  (self : WeatherMonitor) (t h p : double) (out : ostream) :
  exists (self' : WeatherMonitor) (out' : ostream),
    update_weather t h p self out = (self', out')
    /\ temperature self' = t
    /\ humidity self' = h
    /\ pressure self' = p
    /\ location self' = location self.
Proof.
  eexists. eexists. split; [reflexivity|]. repeat split.
Qed.

(** C9: after any sequence of [update_weather], [display_weather] and
    [get_temperature] calls on a constructed station, its location is the
    string the constructor was given. *)
Theorem location_is_immutable
  (uninit : double) (loc : string) (cs : list call) (out : ostream) :
  location (fst (invoke_all cs (new_WeatherMonitor_from uninit loc) out)) = loc.
Proof. rewrite invoke_all_location. reflexivity. Qed.

(** ** The aggregator *)

Section Aggregator.

(** The loop adds the temperatures to the accumulator from left to right
    and hands the vector back as it found it. *)
Lemma accumulate_fold (monitors : list WeatherMonitor) :
  forall total : double,
    accumulate monitors total
    = (fold_left add (temperatures monitors) total, monitors).
Proof.
  induction monitors as [|monitor rest IH]; intros total.
  - reflexivity.
  - cbn [accumulate get_temperature temperatures map fold_left fst].
    rewrite IH. reflexivity.
Qed.

Lemma calculate_average_temperature_eq (monitors : list WeatherMonitor) :
  calculate_average_temperature monitors
  = (arithmetic_mean (temperatures monitors), monitors).
Proof.
  unfold calculate_average_temperature, arithmetic_mean, float_sum, temperatures.
  rewrite accumulate_fold, length_map. reflexivity.
Qed.

Lemma temperatures_agree (ms1 ms2 : list WeatherMonitor) :
  Forall2 (fun a b => temperature a = temperature b) ms1 ms2 ->
  temperatures ms1 = temperatures ms2.
Proof.
  induction 1 as [|a b ms1 ms2 Hab _ IH].
  - reflexivity.
  - unfold temperatures in *. cbn [map]. f_equal; [exact Hab | exact IH].
Qed.

End Aggregator.

(** C2, as the code has it: on an empty vector nothing is signalled; the
    function divides 0.0 by 0.0 and returns the NaN that gives, and the
    vector stays empty. *)
Theorem average_of_nothing_is_nan :
  calculate_average_temperature [] = (div pos_zero (of_size 0), [])
  /\ div pos_zero (of_size 0) = nan.
Proof. split; reflexivity. Qed.

(** C2 fails: the call on the empty vector returns normally, and what it
    returns is a NaN. *)
Lemma average_of_nothing_not_signalled :
  exists v : double,
    fst (calculate_average_temperature []) = v /\ is_nan v = true.
Proof. exists nan. split; reflexivity. Qed.

(** C5: the two stations of [main], constructed and updated as [main] does,
    average to the double 21.75, and that is the number in the last line
    [main] prints. *)
Theorem driver_average_is_21_75 :
  let monitor1 :=
    fst (update_weather (literal 255 1) (literal 600 1) (literal 10132 1)
           (new_WeatherMonitor "New York") []) in
  let monitor2 :=
    fst (update_weather (literal 180 1) (literal 750 1) (literal 10085 1)
           (new_WeatherMonitor "London") []) in
  fst (calculate_average_temperature [monitor1; monitor2]) = literal 2175 2
  /\ has_value (literal 2175 2) (2175 # 100)
  /\ has_value (temperature monitor1) (255 # 10)
  /\ has_value (temperature monitor2) (180 # 10)
  /\ exists out : ostream,
       main [] = (0%Z, out ++ [Str "Average temperature across locations: ";
                               Dbl (literal 2175 2); Str "°C"; Endl]).
Proof.
  cbv zeta. split; [vm_compute; reflexivity|].
  split; [vm_compute; reflexivity|].
  split; [vm_compute; reflexivity|].
  split; [vm_compute; reflexivity|].
  exists (firstn 52 (snd (main []))). vm_compute. reflexivity.
Qed.

(** C6, as the code has it: the average over a single station whose
    temperature is [T] is the very double [T] (NaN for NaN), except for
    [T = -0.0], where it is [0.0]: the loop computes [0.0 + T], and
    [0.0 + -0.0] is [0.0]. *)
Theorem singleton_average_returns_temperature (self : WeatherMonitor) :
  is_double (temperature self) ->
  fst (calculate_average_temperature [self])
  = (if is_neg_zero (temperature self) then pos_zero else temperature self)
  /\ eqb (fst (calculate_average_temperature [self])) (temperature self)
     = negb (is_nan (temperature self)).
Proof.
  intros Hd. rewrite calculate_average_temperature_eq. cbn [fst].
  unfold arithmetic_mean, float_sum.
  cbn [temperatures map get_temperature fst fold_left List.length].
  rewrite DoubleFacts.of_size_1, DoubleFacts.add_pos_zero.
  destruct (is_neg_zero (temperature self)) eqn:Hz.
  - apply DoubleFacts.is_neg_zero_inv in Hz. rewrite Hz. split; reflexivity.
  - rewrite (DoubleFacts.div_one _ Hd). split.
    + reflexivity.
    + apply DoubleFacts.eqb_self.
Qed.

Lemma singleton_average_returns_temperature_witness :
  is_double (temperature new_york)
  /\ fst (calculate_average_temperature [new_york]) = temperature new_york
  /\ eqb (fst (calculate_average_temperature [new_york])) (temperature new_york)
     = true.
Proof.
  split.
  - reflexivity.
  - apply (singleton_average_returns_temperature new_york). reflexivity.
Defined.

(** C6 fails under either reading of "exactly": for a station at [-0.0]
    the average is [0.0], a different double (though [==] to it); for a
    station at NaN the average is NaN, which is the same double but not
    [==] to it. *)
Lemma singleton_average_differs :
  fst (calculate_average_temperature [vostok]) <> fst (get_temperature vostok)
  /\ eqb (fst (calculate_average_temperature [broken]))
         (fst (get_temperature broken)) = false.
Proof. split; [discriminate | reflexivity]. Qed.

(** C8: after the call the vector behind the reference holds the stations
    it held before, each with the location, temperature, humidity and
    pressure it had. *)
Theorem average_leaves_stations_unchanged (monitors : list WeatherMonitor) :
  snd (calculate_average_temperature monitors) = monitors.
Proof. rewrite calculate_average_temperature_eq. reflexivity. Qed.

(** C10: two vectors of the same length whose stations have, position by
    position, the same temperature get the same average, whatever their
    locations, humidities and pressures are. *)
Theorem average_depends_on_temperatures_only (ms1 ms2 : list WeatherMonitor) :
  Forall2 (fun a b => temperature a = temperature b) ms1 ms2 ->
  fst (calculate_average_temperature ms1)
  = fst (calculate_average_temperature ms2).
Proof.
  intros Hagree. rewrite !calculate_average_temperature_eq. cbn [fst].
  unfold arithmetic_mean.
  rewrite (temperatures_agree ms1 ms2 Hagree). reflexivity.
Qed.

Lemma average_depends_on_temperatures_only_witness :
  Forall2 (fun a b => temperature a = temperature b)
          [new_york; london] [boston; reykjavik]
  /\ fst (calculate_average_temperature [new_york; london])
     = fst (calculate_average_temperature [boston; reykjavik]).
Proof.
  split.
  - repeat constructor.
  - apply (average_depends_on_temperatures_only
             [new_york; london] [boston; reykjavik]).
    repeat constructor.
Defined.


(** * Further properties of the station *)

Lemma invoke_append (c : call) (self : WeatherMonitor) (out : ostream) :
  invoke c self out = (fst (invoke c self []), out ++ snd (invoke c self [])).
Proof.
  destruct c; cbn; unfold bind, cout, ret; cbn; rewrite <- ?app_assoc;
    try reflexivity.
  rewrite app_nil_r. reflexivity.
Qed.

Lemma invoke_all_app (cs1 cs2 : list call) :
  forall (self : WeatherMonitor) (out : ostream),
    invoke_all (cs1 ++ cs2) self out
    = invoke_all cs2 (fst (invoke_all cs1 self out)) (snd (invoke_all cs1 self out)).
Proof.
  induction cs1 as [|c cs1 IH]; intros self out.
  - reflexivity.
  - cbn [app invoke_all]. unfold bind.
    destruct (invoke c self out) as [self' out']. apply IH.
Qed.

Lemma lines_app (o1 o2 : ostream) : lines (o1 ++ o2) = (lines o1 + lines o2)%nat.
Proof.
  induction o1 as [|i o1 IH]; [reflexivity|].
  destruct i; cbn [app lines]; rewrite IH; lia.
Qed.

(** What one call adds: the [endl]s of its statements and, where the
    location is printed, the line breaks of the location. *)
Lemma invoke_lines (c : call) (self : WeatherMonitor) :
  lines (snd (invoke c self []))
  = match c with
    | Update _ _ _ => (1 + newlines_in (location self))%nat
    | Display => (4 + newlines_in (location self))%nat
    | GetTemperature => 0%nat
    end.
Proof.
  destruct c; cbn; unfold bind, cout, ret; cbn; lia.
Qed.

Lemma invoke_all_state (cs : list call) :
  forall (self : WeatherMonitor) (out : ostream),
    fst (invoke_all cs self out)
    = match last_update cs with
      | Some (temp, hum, pres) => mkWeatherMonitor (location self) temp hum pres
      | None => self
      end.
Proof.
  induction cs as [|c cs IH]; intros self out.
  - reflexivity.
  - cbn [invoke_all last_update]. unfold bind.
    destruct (invoke c self out) as [self' out'] eqn:Hc.
    rewrite IH.
    assert (Hl : location self' = location self)
      by (rewrite <- (invoke_location c self out), Hc; reflexivity).
    rewrite Hl.
    destruct (last_update cs) as [[[t h] p]|]; [reflexivity|].
    destruct c; cbn in Hc; unfold bind, cout, ret in Hc; cbn in Hc;
      inversion Hc; subst; reflexivity.
Qed.

(** X1: after any sequence of calls a station holds the readings of the
    last [update_weather] in the sequence and its old location; with no
    [update_weather] in the sequence it is as it was. Earlier updates,
    [display_weather] and [get_temperature] leave no trace. *)
Theorem readings_are_last_update
  (cs : list call) (self : WeatherMonitor) (out : ostream) :
  fst (invoke_all cs self out)
  = match last_update cs with
    | Some (temp, hum, pres) => mkWeatherMonitor (location self) temp hum pres
    | None => self
    end.
Proof. apply invoke_all_state. Qed.

(** X2: calls on a station only append to [cout]: what was in the stream
    stays in front, and neither the text appended nor the station's final
    state depends on it. *)
Theorem calls_only_append (cs : list call) :
  forall (self : WeatherMonitor) (out : ostream),
    invoke_all cs self out
    = (fst (invoke_all cs self []), out ++ snd (invoke_all cs self [])).
Proof.
  induction cs as [|c cs IH]; intros self out.
  - cbn. unfold ret. rewrite app_nil_r. reflexivity.
  - cbn [invoke_all]. unfold bind.
    rewrite (invoke_append c self out), (invoke_append c self []).
    cbn [app].
    rewrite (IH _ (out ++ _)), (IH _ (snd (invoke c self []))).
    cbn [fst snd]. rewrite app_assoc. reflexivity.
Qed.

(** X3: the text a sequence of calls sends to [cout] gains one line break
    per [update_weather] and four per [display_weather] (their [endl]s),
    and the line breaks of the station's location once for each of these
    calls, as the location is printed verbatim; [get_temperature] prints
    nothing. For a location without line breaks that is one line per
    update and four per display. *)
Theorem calls_line_count (cs : list call) :
  forall (self : WeatherMonitor) (out : ostream),
    lines (snd (invoke_all cs self out))
    = (lines out
       + updates cs * (1 + newlines_in (location self))
       + displays cs * (4 + newlines_in (location self)))%nat.
Proof.
  induction cs as [|c cs IH]; intros self out.
  - cbn. lia.
  - cbn [invoke_all]. unfold bind.
    pose proof (invoke_location c self out) as Hloc.
    pose proof (invoke_lines c self) as Hlines.
    rewrite (invoke_append c self out) in *. cbn [fst snd] in *.
    rewrite IH, Hloc, lines_app, Hlines.
    destruct c; cbn [updates displays]; lia.
Qed.

(** X4: [display_weather] after a sequence of calls with at least one
    [update_weather] prints the station's original location and the three
    readings of the last update, in the order temperature, humidity,
    pressure, after everything printed before. *)
Theorem display_shows_last_update
  (cs : list call) (self : WeatherMonitor) (out : ostream) (t h p : double) :
  last_update cs = Some (t, h, p) ->
  snd (invoke_all (cs ++ [Display]) self out)
  = snd (invoke_all cs self out)
    ++ [Str "Current weather in "; Str (location self); Str ":"; Endl;
        Str "Temperature: "; Dbl t; Str "°C"; Endl;
        Str "Humidity: "; Dbl h; Str "%"; Endl;
        Str "Pressure: "; Dbl p; Str " hPa"; Endl].
Proof.
  intros Hlast. rewrite invoke_all_app, invoke_all_state, Hlast.
  cbn. unfold bind, cout, ret. cbn. rewrite <- !app_assoc. reflexivity.
Qed.

Lemma display_shows_last_update_witness :
  last_update [Update pos_zero nan nan; GetTemperature;
               Update (literal 180 1) (literal 750 1) (literal 10085 1); Display]
  = Some (literal 180 1, literal 750 1, literal 10085 1)
  /\ snd (invoke_all
            ([Update pos_zero nan nan; GetTemperature;
              Update (literal 180 1) (literal 750 1) (literal 10085 1); Display]
             ++ [Display]) (new_WeatherMonitor "London") [])
     = snd (invoke_all
              [Update pos_zero nan nan; GetTemperature;
               Update (literal 180 1) (literal 750 1) (literal 10085 1); Display]
              (new_WeatherMonitor "London") [])
       ++ [Str "Current weather in "; Str "London"; Str ":"; Endl;
           Str "Temperature: "; Dbl (literal 180 1); Str "°C"; Endl;
           Str "Humidity: "; Dbl (literal 750 1); Str "%"; Endl;
           Str "Pressure: "; Dbl (literal 10085 1); Str " hPa"; Endl].
Proof.
  split.
  - reflexivity.
  - apply (display_shows_last_update
             [Update pos_zero nan nan; GetTemperature;
              Update (literal 180 1) (literal 750 1) (literal 10085 1); Display]
             (new_WeatherMonitor "London") []).
    reflexivity.
Defined.

(** * Further properties of the aggregator *)

Module DoubleArith.

Lemma add_nan_r (x : double) : add x nan = nan.
Proof. destruct x as [s|s| |s m e]; reflexivity. Qed.

Lemma add_comm (x y : double) : add x y = add y x.
Proof.
  destruct x as [[|]|[|]| |sx mx ex], y as [[|]|[|]| |sy my ey]; try reflexivity.
  unfold add, SFadd. rewrite (Z.min_comm ey ex). f_equal. apply Z.add_comm.
Qed.

Lemma fold_add_nan (ts : list double) : fold_left add ts nan = nan.
Proof. induction ts as [|t ts IH]; [reflexivity|]. cbn [fold_left]. exact IH. Qed.

(** Once a NaN is added the running total is NaN for good. *)
Lemma fold_add_In_nan (ts : list double) :
  In nan ts -> forall total : double, fold_left add ts total = nan.
Proof.
  induction ts as [|t ts IH]; intros Hin total.
  - destruct Hin.
  - cbn [fold_left]. destruct Hin as [->|Hin].
    + rewrite add_nan_r. apply fold_add_nan.
    + apply IH. exact Hin.
Qed.

(** The total after the first two additions does not depend on their
    order, signed zeros included. *)
Lemma add_zeros_swap (a b : double) :
  add (add pos_zero a) b = add (add pos_zero b) a.
Proof.
  rewrite !DoubleFacts.add_pos_zero.
  destruct (is_neg_zero a) eqn:Ha, (is_neg_zero b) eqn:Hb.
  - apply DoubleFacts.is_neg_zero_inv in Ha, Hb. subst. reflexivity.
  - apply DoubleFacts.is_neg_zero_inv in Ha. subst a.
    destruct b as [[|]|[|]| |s m e]; try reflexivity. discriminate Hb.
  - apply DoubleFacts.is_neg_zero_inv in Hb. subst b.
    destruct a as [[|]|[|]| |s m e]; try reflexivity. discriminate Ha.
  - apply add_comm.
Qed.

(** Doubles that compare [==] to 0.0 are the two zeros; adding them up
    from 0.0 gives 0.0. *)
Lemma eqb_zero_inv (x : double) :
  eqb x pos_zero = true -> x = pos_zero \/ x = neg_zero.
Proof.
  destruct x as [[|]|[|]| |[|] m e]; intros H; try discriminate H; auto.
Qed.

Lemma fold_add_zeros (ts : list double) :
  Forall (fun t => eqb t pos_zero = true) ts ->
  fold_left add ts pos_zero = pos_zero.
Proof.
  induction 1 as [|t ts Ht _ IH]; [reflexivity|].
  cbn [fold_left]. destruct (eqb_zero_inv t Ht) as [->| ->]; exact IH.
Qed.

End DoubleArith.

Module SizeFacts.

Local Open Scope Z_scope.

Lemma iter_xO_value (p k : positive) :
  Zpos (Pos.iter xO p k) = Zpos p * 2 ^ Zpos k.
Proof.
  induction k as [|k IH] using Pos.peano_ind.
  - cbn [Pos.iter]. lia.
  - rewrite Pos.iter_succ, Pos2Z.inj_succ, Z.pow_succ_r by lia.
    rewrite Pos2Z.inj_xO, IH. ring.
Qed.

Lemma iter_xO_digits (p k : positive) :
  digits2_pos (Pos.iter xO p k) = (digits2_pos p + k)%positive.
Proof.
  induction k as [|k IH] using Pos.peano_ind.
  - cbn [Pos.iter digits2_pos]. lia.
  - rewrite Pos.iter_succ. cbn [digits2_pos]. rewrite IH. lia.
Qed.

(** A positive number below [2^k] has at most [k] binary digits. *)
Lemma digits_bound (p : positive) :
  forall k : Z, 0 <= k -> Zpos p < 2 ^ k -> Zpos (digits2_pos p) <= k.
Proof.
  induction p as [p IH|p IH|]; intros k Hk Hp;
    assert (Hk0 : k <> 0) by (intros ->; cbn in Hp; lia);
    cbn [digits2_pos]; [| |lia];
    rewrite Pos2Z.inj_succ;
    replace k with (Z.succ (k - 1)) in Hp by lia;
    rewrite Z.pow_succ_r in Hp by lia;
    specialize (IH (k - 1)); lia.
Qed.

(** Below 2^53 the conversion to [double] pads the integer with low zero
    bits up to 53 bits and rounds nothing away. *)
Lemma of_Z_small (p : positive) :
  Zpos p < 2 ^ 53 ->
  exists (m : positive) (e : Z),
    of_Z (Zpos p) = S754_finite false m e
    /\ e <= 0
    /\ Zpos m = Zpos p * 2 ^ (- e).
Proof.
  intros Hp.
  pose proof (digits_bound p 53 ltac:(lia) Hp) as Hd.
  unfold of_Z, binary_normalize, binary_round.
  rewrite DoubleFacts.fexp_eq.
  replace (Z.max (Zpos (digits2_pos p) + 0 - 53) (-1074))
    with (Zpos (digits2_pos p) - 53) by lia.
  unfold shl_align.
  destruct (Zpos (digits2_pos p) - 53 - 0) as [|k|k] eqn:Hk; try lia.
  - exists p, 0. split; [|split; [lia|cbn; lia]].
    apply DoubleFacts.round_canonical.
    unfold bounded, canonical_mantissa. rewrite DoubleFacts.fexp_eq.
    apply andb_true_intro. split; [apply Z.eqb_eq; lia|reflexivity].
  - exists (Pos.iter xO p k), (Zpos (digits2_pos p) - 53).
    split; [|split; [lia|]].
    + apply DoubleFacts.round_canonical.
      unfold bounded, canonical_mantissa.
      rewrite iter_xO_digits, DoubleFacts.fexp_eq, Pos2Z.inj_add.
      change (emax - prec) with 971.
      apply andb_true_intro. split; [apply Z.eqb_eq|apply Z.leb_le]; lia.
    + rewrite iter_xO_value. f_equal. f_equal. lia.
Qed.

Lemma of_size_small (n : nat) :
  (1 <= n)%nat -> Z.of_nat n < 2 ^ 53 ->
  exists (m : positive) (e : Z),
    of_size n = S754_finite false m e
    /\ e <= 0
    /\ Zpos m = Z.of_nat n * 2 ^ (- e).
Proof.
  intros H1 H2. unfold of_size.
  destruct (Z.of_nat n) as [|p|p] eqn:Hn; try lia.
  apply of_Z_small. exact H2.
Qed.

Lemma finite_has_value (m : positive) (e : Z) (n : Z) :
  e <= 0 -> Zpos m = n * 2 ^ (- e) ->
  has_value (S754_finite false m e) (inject_Z n).
Proof.
  intros He Hm. unfold has_value, value, cond_Zopp.
  rewrite Hm, inject_Z_mult.
  replace e with (- (- e)) at 2 by lia.
  rewrite Qpower_opp, Zpower_Qpower by lia.
  change (inject_Z 2) with 2%Q.
  field. apply Qpower_not_0. discriminate.
Qed.

End SizeFacts.

(** X5: one station whose temperature is NaN makes the average NaN,
    wherever it stands in the vector and whatever the others read. *)
Theorem one_nan_makes_average_nan (monitors : list WeatherMonitor) :
  Exists (fun monitor => is_nan (temperature monitor) = true) monitors ->
  fst (calculate_average_temperature monitors) = nan.
Proof.
  intros Hex. rewrite calculate_average_temperature_eq. cbn [fst].
  unfold arithmetic_mean, float_sum.
  rewrite DoubleArith.fold_add_In_nan; [reflexivity|].
  apply Exists_exists in Hex. destruct Hex as [m [Hin Hn]].
  unfold temperatures. apply in_map_iff. exists m. split; [|exact Hin].
  cbn. destruct (temperature m); try discriminate Hn. reflexivity.
Qed.

Lemma one_nan_makes_average_nan_witness :
  Exists (fun monitor => is_nan (temperature monitor) = true)
         [new_york; broken; london]
  /\ fst (calculate_average_temperature [new_york; broken; london]) = nan.
Proof.
  split.
  - apply Exists_cons_tl, Exists_cons_hd. reflexivity.
  - apply (one_nan_makes_average_nan [new_york; broken; london]).
    apply Exists_cons_tl, Exists_cons_hd. reflexivity.
Defined.

(** X6: exchanging the first two stations of a vector does not change the
    average: the two additions that start the total commute, signed zeros
    and NaN included. *)
Theorem average_swap_first_two (a b : WeatherMonitor) (rest : list WeatherMonitor) :
  fst (calculate_average_temperature (a :: b :: rest))
  = fst (calculate_average_temperature (b :: a :: rest)).
Proof.
  rewrite !calculate_average_temperature_eq. cbn [fst].
  unfold arithmetic_mean, float_sum.
  cbn [temperatures map get_temperature fst fold_left List.length].
  rewrite DoubleArith.add_zeros_swap. reflexivity.
Qed.

(** X7: for a vector of at least one and fewer than 2^53 stations the
    divisor of the final division, [monitors.size()] converted to
    [double], is a double whose value is exactly the number of stations. *)
Theorem divisor_is_station_count (monitors : list WeatherMonitor) :
  monitors <> [] ->
  (Z.of_nat (List.length monitors) < 2 ^ 53)%Z ->
  exists divisor : double,
    fst (calculate_average_temperature monitors)
    = div (float_sum (temperatures monitors)) divisor
    /\ has_value divisor (inject_Z (Z.of_nat (List.length monitors))).
Proof.
  intros Hne Hlt.
  assert (H1 : (1 <= List.length monitors)%nat)
    by (destruct monitors; [contradiction|cbn; lia]).
  destruct (SizeFacts.of_size_small _ H1 Hlt) as [m [e [Hsz [He Hm]]]].
  exists (of_size (List.length monitors)). split.
  - rewrite calculate_average_temperature_eq. cbn [fst].
    unfold arithmetic_mean, temperatures. rewrite length_map. reflexivity.
  - rewrite Hsz. apply SizeFacts.finite_has_value; assumption.
Qed.

Lemma divisor_is_station_count_witness :
  [new_york; london; vostok] <> []
  /\ (Z.of_nat (List.length [new_york; london; vostok]) < 2 ^ 53)%Z
  /\ exists divisor : double,
       fst (calculate_average_temperature [new_york; london; vostok])
       = div (float_sum (temperatures [new_york; london; vostok])) divisor
       /\ has_value divisor
            (inject_Z (Z.of_nat (List.length [new_york; london; vostok]))).
Proof.
  split; [discriminate|]. split; [reflexivity|].
  apply (divisor_is_station_count [new_york; london; vostok]).
  - discriminate.
  - reflexivity.
Defined.

(** X8: when every station of a non-empty vector (of fewer than 2^53
    stations) reads a temperature [==] 0.0, as stations that were never
    updated do, the average is 0.0. *)
Theorem zero_readings_average_zero (monitors : list WeatherMonitor) :
  monitors <> [] ->
  (Z.of_nat (List.length monitors) < 2 ^ 53)%Z ->
  Forall (fun monitor => eqb (temperature monitor) pos_zero = true) monitors ->
  fst (calculate_average_temperature monitors) = pos_zero.
Proof.
  intros Hne Hlt Hzero.
  assert (H1 : (1 <= List.length monitors)%nat)
    by (destruct monitors; [contradiction|cbn; lia]).
  destruct (SizeFacts.of_size_small _ H1 Hlt) as [m [e [Hsz _]]].
  rewrite calculate_average_temperature_eq. cbn [fst].
  unfold arithmetic_mean, float_sum.
  rewrite DoubleArith.fold_add_zeros.
  - unfold temperatures. rewrite length_map, Hsz. reflexivity.
  - unfold temperatures. apply Forall_map. exact Hzero.
Qed.

Lemma zero_readings_average_zero_witness :
  [new_WeatherMonitor "Oslo"; vostok] <> []
  /\ (Z.of_nat (List.length [new_WeatherMonitor "Oslo"; vostok]) < 2 ^ 53)%Z
  /\ Forall (fun monitor => eqb (temperature monitor) pos_zero = true)
            [new_WeatherMonitor "Oslo"; vostok]
  /\ fst (calculate_average_temperature [new_WeatherMonitor "Oslo"; vostok])
     = pos_zero.
Proof.
  split; [discriminate|]. split; [reflexivity|].
  split; [repeat constructor|].
  apply (zero_readings_average_zero [new_WeatherMonitor "Oslo"; vostok]).
  - discriminate.
  - reflexivity.
  - repeat constructor.
Defined.

(** ** The sum of a double with itself, halved *)

Module PairFacts.
Local Open Scope Z_scope.
Import DoubleFacts.

Lemma of_size_2 : of_size 2 = two.
Proof. reflexivity. Qed.

Lemma bounded_intro (m : positive) (e : Z) :
  Z.max (Zpos (digits2_pos m) + e - 53) (-1074) = e -> e <= 971 ->
  bounded prec emax m e = true.
Proof.
  intros Hc He. unfold bounded, canonical_mantissa. rewrite fexp_eq.
  change (emax - prec) with 971.
  apply andb_true_intro. split; [apply Z.eqb_eq|apply Z.leb_le]; assumption.
Qed.

Lemma add_self_sum (s : bool) (m : positive) :
  cond_Zopp s (Zpos m) + cond_Zopp s (Zpos m) = cond_Zopp s (Zpos m~0).
Proof. destruct s; cbn [cond_Zopp]; lia. Qed.

Lemma normalize_signed (s : bool) (m : positive) (e : Z) :
  binary_normalize prec emax (cond_Zopp s (Zpos m)) e false
  = binary_round prec emax s m e.
Proof. destruct s; reflexivity. Qed.

Lemma add_self_prepare (s : bool) (m : positive) (e : Z) :
  add (S754_finite s m e) (S754_finite s m e)
  = binary_round prec emax s m~0 e.
Proof.
  unfold add, SFadd, shl_align. rewrite Z.min_id, Z.sub_diag. cbn [fst].
  rewrite add_self_sum. apply normalize_signed.
Qed.

Lemma add_self_normal (s : bool) (m : positive) (e : Z) :
  Zpos (digits2_pos m) = 53 -> -1074 <= e < 971 ->
  add (S754_finite s m e) (S754_finite s m e) = S754_finite s m (e + 1).
Proof.
  intros Hd He. rewrite add_self_prepare. unfold binary_round.
  cbn [digits2_pos]. rewrite Pos2Z.inj_succ, Hd, fexp_eq.
  replace (Z.max (Z.succ 53 + e - 53) (-1074)) with (e + 1) by lia.
  unfold shl_align. replace (e + 1 - e) with 1 by lia. cbv iota beta.
  replace e with (e + 1 - 1) at 1 by lia.
  apply round_doubled; [lia|]. apply bounded_intro; lia.
Qed.

Lemma add_self_subnormal (s : bool) (m : positive) :
  Zpos (digits2_pos m) < 53 ->
  add (S754_finite s m (-1074)) (S754_finite s m (-1074))
  = S754_finite s m~0 (-1074).
Proof.
  intros Hd. rewrite add_self_prepare. unfold binary_round.
  cbn [digits2_pos]. rewrite Pos2Z.inj_succ, fexp_eq.
  replace (Z.max (Z.succ (Zpos (digits2_pos m)) + -1074 - 53) (-1074))
    with (-1074) by lia.
  unfold shl_align. cbv iota beta. change (-1074 - -1074) with 0. cbv iota beta.
  apply round_canonical. apply bounded_intro; cbn [digits2_pos]; lia.
Qed.

Lemma div_two_core_high (m : positive) (e : Z) :
  Zpos (digits2_pos m) = 53 -> -1074 < e ->
  SFdiv_core_binary prec emax (Zpos m) (e + 1) 4503599627370496 (-51)
  = (Zpos m~0, e - 1, loc_Exact).
Proof.
  intros Hd He. unfold SFdiv_core_binary.
  change (Zdigits2 (Zpos m)) with (Zpos (digits2_pos m)). rewrite Hd.
  change (Zdigits2 4503599627370496) with 53.
  rewrite fexp_eq.
  replace (Z.min (Z.max (53 + (e + 1) - (53 + -51) - 53) (-1074)) (e + 1 - -51))
    with (e - 1) by lia.
  replace (e + 1 - -51 - (e - 1)) with 53 by lia.
  cbv beta iota zeta.
  rewrite div_eucl_pair, Z.shiftl_mul_pow2 by lia.
  change (2 ^ 53) with (2 * 4503599627370496).
  rewrite Z.mul_assoc, Z_div_mult, Z_mod_mult by lia.
  replace (Zpos m * 2) with (Zpos m~0) by lia.
  reflexivity.
Qed.

Lemma div_two_core_edge (m : positive) :
  Zpos (digits2_pos m) = 53 ->
  SFdiv_core_binary prec emax (Zpos m) (-1073) 4503599627370496 (-51)
  = (Zpos m, -1074, loc_Exact).
Proof.
  intros Hd. unfold SFdiv_core_binary.
  change (Zdigits2 (Zpos m)) with (Zpos (digits2_pos m)). rewrite Hd.
  change (Zdigits2 4503599627370496) with 53.
  rewrite fexp_eq.
  change (Z.min (Z.max (53 + -1073 - (53 + -51) - 53) (-1074)) (-1073 - -51))
    with (-1074).
  change (-1073 - -51 - -1074) with 52.
  cbv beta iota zeta.
  rewrite div_eucl_pair, Z.shiftl_mul_pow2 by lia.
  change (2 ^ 52) with 4503599627370496.
  rewrite Z_div_mult, Z_mod_mult by lia.
  reflexivity.
Qed.

Lemma div_two_core_subnormal (m : positive) :
  Zpos (digits2_pos m) < 53 ->
  SFdiv_core_binary prec emax (Zpos m~0) (-1074) 4503599627370496 (-51)
  = (Zpos m, -1074, loc_Exact).
Proof.
  intros Hd. unfold SFdiv_core_binary.
  change (Zdigits2 (Zpos m~0)) with (Zpos (Pos.succ (digits2_pos m))).
  change (Zdigits2 4503599627370496) with 53.
  rewrite Pos2Z.inj_succ, fexp_eq.
  replace (Z.min (Z.max (Z.succ (Zpos (digits2_pos m)) + -1074 - (53 + -51) - 53)
                        (-1074)) (-1074 - -51))
    with (-1074) by lia.
  change (-1074 - -51 - -1074) with 51.
  cbv beta iota zeta.
  rewrite div_eucl_pair, Z.shiftl_mul_pow2 by lia.
  replace (Zpos m~0 * 2 ^ 51) with (Zpos m * 4503599627370496) by lia.
  rewrite Z_div_mult, Z_mod_mult by lia.
  reflexivity.
Qed.

(** Half of [x + x] is [x], unless [x + x] overflows. *)
Lemma half_of_double (s : bool) (m : positive) (e : Z) :
  bounded prec emax m e = true -> e < 971 ->
  div (add (S754_finite s m e) (S754_finite s m e)) two = S754_finite s m e.
Proof.
  intros Hb He. destruct (bounded_inv _ _ Hb) as [Hmax _].
  destruct (Z.eq_dec (Zpos (digits2_pos m)) 53) as [Hd|Hd].
  - rewrite add_self_normal by lia.
    unfold div, two, SFdiv. rewrite xorb_false_r.
    destruct (Z.eq_dec e (-1074)) as [->|Hne].
    + change (-1074 + 1) with (-1073).
      rewrite div_two_core_edge by assumption.
      apply round_canonical. assumption.
    + rewrite div_two_core_high by lia.
      apply round_doubled; [lia|assumption].
  - assert (e = -1074) by lia. subst e.
    rewrite add_self_subnormal by lia.
    unfold div, two, SFdiv. rewrite xorb_false_r.
    rewrite div_two_core_subnormal by lia.
    apply round_canonical. assumption.
Qed.

End PairFacts.

(** X9: two stations that read the same temperature [T], of magnitude
    below 2^1023, average to [T] itself (to 0.0 when [T] is -0.0): the sum
    [T + T] and its half are computed without rounding. *)
Theorem equal_pair_average (a b : WeatherMonitor) :
  is_double (temperature a) ->
  doubling_fits (temperature a) = true ->
  temperature b = temperature a ->
  fst (calculate_average_temperature [a; b])
  = if is_neg_zero (temperature a) then pos_zero else temperature a.
Proof.
  intros Hd Hfit Hb. rewrite calculate_average_temperature_eq. cbn [fst].
  unfold arithmetic_mean, float_sum.
  cbn [temperatures map get_temperature fst fold_left List.length].
  rewrite Hb, PairFacts.of_size_2.
  destruct (temperature a) as [[|]|[|]| |s m e]; try reflexivity.
  cbn [is_neg_zero]. rewrite DoubleFacts.add_pos_zero. cbn [is_neg_zero].
  apply PairFacts.half_of_double; [exact Hd|].
  apply Z.ltb_lt in Hfit. exact Hfit.
Qed.

Lemma equal_pair_average_witness :
  is_double (temperature london)
  /\ doubling_fits (temperature london) = true
  /\ temperature reykjavik = temperature london
  /\ fst (calculate_average_temperature [london; reykjavik]) = temperature london.
Proof.
  split; [reflexivity|]. split; [reflexivity|]. split; [reflexivity|].
  apply (equal_pair_average london reykjavik); reflexivity.
Defined.

(** Three equal readings need not average to that reading: 0.1 three
    times gives 0.10000000000000002. *)
Remark equal_triple_average_differs :
  fst (calculate_average_temperature
         [mkWeatherMonitor "A" (literal 1 1) pos_zero pos_zero;
          mkWeatherMonitor "B" (literal 1 1) pos_zero pos_zero;
          mkWeatherMonitor "C" (literal 1 1) pos_zero pos_zero])
  <> literal 1 1.
Proof. vm_compute. discriminate. Qed.

(** Nor is the average the same in every order of the stations once more
    than the first two are exchanged: 2^53, 1, 1 against 1, 1, 2^53. *)
Remark later_order_matters :
  fst (calculate_average_temperature
         [mkWeatherMonitor "A" (of_Z (2 ^ 53)) pos_zero pos_zero;
          mkWeatherMonitor "B" one pos_zero pos_zero;
          mkWeatherMonitor "C" one pos_zero pos_zero])
  <> fst (calculate_average_temperature
            [mkWeatherMonitor "B" one pos_zero pos_zero;
             mkWeatherMonitor "C" one pos_zero pos_zero;
             mkWeatherMonitor "A" (of_Z (2 ^ 53)) pos_zero pos_zero]).
Proof. vm_compute. discriminate. Qed.


(** * The average against the exact arithmetic mean *)

(** ** Additions and divisions that round nothing away *)

Module ExactFacts.
Local Open Scope Z_scope.
Import DoubleFacts.

Local Notation "'D' m" := (Zpos (digits2_pos m)) (at level 9, m at level 9).



















End ExactFacts.

(** ** From the doubles to the rationals they stand for *)

Module ValueFacts.
Import ExactFacts.







Lemma has_value_unique (x : double) (q q' : Q) :
  has_value x q -> has_value x q' -> (q == q')%Q.
Proof.
  unfold has_value. destruct (value x); [|tauto].
  intros H1 H2. rewrite <- H1, <- H2. reflexivity.
Qed.


Local Open Scope Z_scope.







End ValueFacts.

(** ** The running total and the average *)





